(** * tabd: the TPM2 access broker daemon (src/tabd.c)

    A shallow embedding of [tabd.c]: the control-plane handlers, the Unix
    signal handler, the initialization thread, the callbacks of the bus
    name, the command-line options and [main]; the properties of them that
    the specification states, and further properties that the code shows.

    Every C function of [tabd.c] that matters here is a program of the
    monad [M] below: a function of the process state that yields an
    outcome, the state it leaves and the calls it made, in order. *)

From Stdlib Require Import ZArith String List Lia.
From stdpp Require Import gmap.

Local Open Scope string_scope.
Local Open Scope Z_scope.

(** ** Constants of headers that are not part of the sources *)

(** [TSS2_RC_SUCCESS] of <sapi/tpm20.h>. *)
Definition TSS2_RC_SUCCESS : Z := 0.
(** [SIGINT] and [SIGTERM] of <signal.h>. *)
Definition SIGINT : Z := 2.
Definition SIGTERM : Z := 15.

(** ** The rand48 generator of the C library

    [struct drand48_data] holds a 48-bit state X; the multiplier and the
    addend are the fixed ones of the rand48 family.  A zeroed buffer (the
    [gmain_data_t gmain_data = { 0 }] of [main]) behaves as X = 0. *)
Module Rand48.

Definition drand48_data := Z.

Definition a : Z := 0x5DEECE66D.
Definition c : Z := 0xB.
Definition modulus : Z := 2 ^ 48.

(** [srand48_r (seedval, buffer)]: the low 32 bits of the seed become the
    high 32 bits of X, the low 16 bits are 0x330E. *)
Definition srand48_r (seedval : Z) : drand48_data :=
  Z.lor (Z.shiftl (Z.land seedval 0xFFFFFFFF) 16) 0x330E.

(** One step of the linear congruential generator. *)
Definition iterate (x : drand48_data) : drand48_data :=
  (a * x + c) mod modulus.

(** [lrand48_r (buffer, &result)]: steps the generator and stores the
    high 31 bits of the new X in [*result], a [long int].  On the LP64
    targets the daemon is built for, [long int] has 64 bits, so the
    store fills the whole [guint64 id] of the caller. *)
Definition lrand48_r (x : drand48_data) : Z * drand48_data :=
  let x' := iterate x in (Z.shiftr x' 17, x').

(** The state after [n] draws, and the [n]-th draw (counting from 1). *)
Definition after (n : N) (x : drand48_data) : drand48_data :=
  N.iter n iterate x.
Definition draw (n : N) (x : drand48_data) : Z :=
  Z.shiftr (after n x) 17.

End Rand48.

(** ** Data *)

(** Modelled from the spec: the per-client [SessionData] object
    (session-data.[ch] are not part of the sources).  The spec gives it an
    id, an 8-bit locality with default 0, the two server-side endpoints and
    at most one in-flight command. *)
Record SessionData := {
  sd_id : Z;
  sd_locality : Z;
  sd_command_endpoint : Z;
  sd_response_endpoint : Z;
  sd_pending : option (list Z)
}.

(** What the operating system hands to [session_data_new]: the four
    descriptors of its two socket pairs. *)
Record sockets := {
  client_fd0 : Z;
  client_fd1 : Z;
  server_command_fd : Z;
  server_response_fd : Z
}.

(** Modelled from the spec: [session_data_new (&fds[0], &fds[1], id)]
    (session-data.c is not part of the sources).  It builds the session on
    the server-side endpoints and hands the client-side descriptors back
    through its first two arguments; it returns NULL when the endpoints
    cannot be allocated. *)
Definition session_data_new (os : option sockets) (id : Z)
  : option (SessionData * (Z * Z)) :=
  match os with
  | None => None
  | Some s =>
      Some ({| sd_id := id; sd_locality := 0;
               sd_command_endpoint := server_command_fd s;
               sd_response_endpoint := server_response_fd s;
               sd_pending := None |},
            (client_fd0 s, client_fd1 s))
  end.

(** Modelled from the spec: the SessionManager (session-manager.[ch] are
    not part of the sources) is a map from session id to session whose
    [insert] rejects an id that is already present. *)
Module SessionManager.

Abbreviation t := (gmap Z SessionData).

Definition lookup_id (m : t) (id : Z) : option SessionData := m !! id.

(** The [gint] that [session_manager_insert] returns, and the map it
    leaves: 0 and the extended map, or -1 and the map as it was. *)
Definition insert (m : t) (s : SessionData) : Z * t :=
  match m !! sd_id s with
  | Some _ => (-1, m)
  | None => (0, <[sd_id s := s]> m)
  end.

End SessionManager.

(** The three stages of the command pipeline. *)
Inductive stage := CommandSourceStage | TabStage | ResponseSinkStage.

(** What [tabd.c] can see of a pipeline object: the sink its output is
    wired to and whether its thread has been started. *)
Record stage_obj := {
  so_sink : option stage;
  so_started : bool
}.

Definition new_stage : stage_obj := {| so_sink := None; so_started := false |}.

(** A [GMainLoop]: all that matters here is whether it is running. *)
Record GMainLoop := { is_running : bool }.

(** The threads of the daemon that take [init_mutex]. *)
Inductive thread := MainThread | InitThread.

Inductive mutex := Free | Held (owner : thread).

(** The process state: the fields of [gmain_data_t], with the global
    [g_loop], which [main] sets to the same loop as [gmain_data.loop]. *)
Record tabd := {
  g_loop : option GMainLoop;
  manager : option SessionManager.t;
  command_source : option stage_obj;
  response_sink : option stage_obj;
  tab : option stage_obj;
  rand_data : Rand48.drand48_data;
  init_mutex : mutex;
  tcti_initialized : bool;
  signals : list Z
}.

(** ** Calls and outcomes *)

Inductive log_level := LDebug | LInfo | LWarning | LError.

(** The calls of [tabd.c] into GLib, GDBus, the C library and the other
    modules of the daemon. *)
Inductive event :=
| EvLog (level : log_level) (format : string)
| EvMutexLock
| EvMutexUnlock
| EvLrand48 (result : Z)
| EvSessionDataNew (id : Z)
| EvReturnFds (fds : Z * Z) (id : Z)
| EvReturnValue (rc : Z)
| EvLookupId (id : Z)
| EvInsert (id : Z)
| EvSignal (signum : Z)
| EvOpen
| EvRead
| EvSrand48 (seedval : Z)
| EvSessionManagerNew
| EvTctiInitialize
| EvStageNew (s : stage)
| EvSourceAddSink (source sink : stage)
| EvThreadStart (s : stage)
| EvMainLoopIsRunning
| EvMainLoopQuit.

(** How a run of a C function ends: it returns; GLib's fatal log
    ([g_error]) terminates the process abnormally; it blocks in
    [g_mutex_lock]; or it hands a NULL SessionManager to a
    [session_manager_*] function, which neither the sources nor the spec
    define. *)
Inductive outcome (A : Type) :=
| Returned (a : A)
| Aborted
| Blocked
| Undefined.
Arguments Returned {A} a.
Arguments Aborted {A}.
Arguments Blocked {A}.
Arguments Undefined {A}.

Record run (A : Type) := Run {
  result : outcome A;
  final : tabd;
  events : list event
}.
Arguments Run {A} _ _ _.
Arguments result {A} _.
Arguments final {A} _.
Arguments events {A} _.

Definition M (A : Type) : Type := tabd -> run A.

#[global] Instance tabd_ret : MRet M := fun A (a : A) st =>
  Run (Returned a) st [].

#[global] Instance tabd_bind : MBind M := fun A B (k : A -> M B) (m : M A) st =>
  let r := m st in
  match result r with
  | Returned a =>
      let r' := k a (final r) in
      Run (result r') (final r') (events r ++ events r')
  | Aborted => Run Aborted (final r) (events r)
  | Blocked => Run Blocked (final r) (events r)
  | Undefined => Run Undefined (final r) (events r)
  end.

Definition get : M tabd := fun st => Run (Returned st) st [].
Definition put (st : tabd) : M unit := fun _ => Run (Returned tt) st [].
Definition emit (e : event) : M unit := fun st => Run (Returned tt) st [e].

(** ** Field updates of the process state *)

Definition set_g_loop (v : option GMainLoop) (st : tabd) : tabd :=
  {| g_loop := v; manager := manager st; command_source := command_source st;
     response_sink := response_sink st; tab := tab st;
     rand_data := rand_data st; init_mutex := init_mutex st;
     tcti_initialized := tcti_initialized st; signals := signals st |}.

Definition set_manager (v : option SessionManager.t) (st : tabd) : tabd :=
  {| g_loop := g_loop st; manager := v; command_source := command_source st;
     response_sink := response_sink st; tab := tab st;
     rand_data := rand_data st; init_mutex := init_mutex st;
     tcti_initialized := tcti_initialized st; signals := signals st |}.

Definition set_command_source (v : option stage_obj) (st : tabd) : tabd :=
  {| g_loop := g_loop st; manager := manager st; command_source := v;
     response_sink := response_sink st; tab := tab st;
     rand_data := rand_data st; init_mutex := init_mutex st;
     tcti_initialized := tcti_initialized st; signals := signals st |}.

Definition set_response_sink (v : option stage_obj) (st : tabd) : tabd :=
  {| g_loop := g_loop st; manager := manager st;
     command_source := command_source st; response_sink := v; tab := tab st;
     rand_data := rand_data st; init_mutex := init_mutex st;
     tcti_initialized := tcti_initialized st; signals := signals st |}.

Definition set_tab (v : option stage_obj) (st : tabd) : tabd :=
  {| g_loop := g_loop st; manager := manager st;
     command_source := command_source st;
     response_sink := response_sink st; tab := v;
     rand_data := rand_data st; init_mutex := init_mutex st;
     tcti_initialized := tcti_initialized st; signals := signals st |}.

Definition set_rand_data (v : Rand48.drand48_data) (st : tabd) : tabd :=
  {| g_loop := g_loop st; manager := manager st;
     command_source := command_source st;
     response_sink := response_sink st; tab := tab st;
     rand_data := v; init_mutex := init_mutex st;
     tcti_initialized := tcti_initialized st; signals := signals st |}.

Definition set_init_mutex (v : mutex) (st : tabd) : tabd :=
  {| g_loop := g_loop st; manager := manager st;
     command_source := command_source st;
     response_sink := response_sink st; tab := tab st;
     rand_data := rand_data st; init_mutex := v;
     tcti_initialized := tcti_initialized st; signals := signals st |}.

Definition set_tcti_initialized (v : bool) (st : tabd) : tabd :=
  {| g_loop := g_loop st; manager := manager st;
     command_source := command_source st;
     response_sink := response_sink st; tab := tab st;
     rand_data := rand_data st; init_mutex := init_mutex st;
     tcti_initialized := v; signals := signals st |}.

Definition set_signals (v : list Z) (st : tabd) : tabd :=
  {| g_loop := g_loop st; manager := manager st;
     command_source := command_source st;
     response_sink := response_sink st; tab := tab st;
     rand_data := rand_data st; init_mutex := init_mutex st;
     tcti_initialized := tcti_initialized st; signals := v |}.

(** ** The library calls of [tabd.c] *)

(** [g_debug], [g_info] and [g_warning] log and go on; [g_error] logs at
    the error level, which GLib makes fatal: the process is terminated
    abnormally and the call never returns.  The event of a log call records
    its level and its format string, not the arguments that fill the
    format. *)
Definition g_debug (format : string) : M unit := emit (EvLog LDebug format).
Definition g_info (format : string) : M unit := emit (EvLog LInfo format).
Definition g_warning (format : string) : M unit :=
  emit (EvLog LWarning format).
Definition g_error {A} (format : string) : M A := fun st =>
  Run Aborted st [EvLog LError format].

(** [g_mutex_lock (&data->init_mutex)] by thread [self]: it takes a free
    mutex and waits on a held one. *)
Definition g_mutex_lock (self : thread) : M unit := fun st =>
  match init_mutex st with
  | Free => Run (Returned tt) (set_init_mutex (Held self) st) [EvMutexLock]
  | Held _ => Run Blocked st [EvMutexLock]
  end.

Definition g_mutex_unlock : M unit := fun st =>
  Run (Returned tt) (set_init_mutex Free st) [EvMutexUnlock].

(** [lrand48_r (&data->rand_data, &id)]. *)
Definition lrand48_r : M Z := fun st =>
  let '(id, x) := Rand48.lrand48_r (rand_data st) in
  Run (Returned id) (set_rand_data x st) [EvLrand48 id].

(** [srand48_r (rand_seed, rand_data)]. *)
Definition srand48_r (seedval : Z) : M unit := fun st =>
  Run (Returned tt) (set_rand_data (Rand48.srand48_r seedval) st)
      [EvSrand48 seedval].

(** [session_manager_lookup_id (data->manager, id)]. *)
Definition session_manager_lookup_id (id : Z) : M (option SessionData) :=
  fun st =>
  match manager st with
  | None => Run Undefined st [EvLookupId id]
  | Some m => Run (Returned (SessionManager.lookup_id m id)) st [EvLookupId id]
  end.

(** [session_manager_insert (data->manager, session)]. *)
Definition session_manager_insert (session : SessionData) : M Z := fun st =>
  match manager st with
  | None => Run Undefined st [EvInsert (sd_id session)]
  | Some m =>
      let '(ret, m') := SessionManager.insert m session in
      Run (Returned ret) (set_manager (Some m') st) [EvInsert (sd_id session)]
  end.

(** [g_dbus_method_invocation_return_value_with_unix_fd_list] on the tuple
    (handles of the two client descriptors, id). *)
Definition return_value_with_unix_fd_list (fds : Z * Z) (id : Z) : M unit :=
  emit (EvReturnFds fds id).

(** [g_dbus_method_invocation_return_value] on a one-element tuple holding
    a uint32. *)
Definition return_value (rc : Z) : M unit := emit (EvReturnValue rc).

(** ** The control-plane handlers (tabd.c, lines 87-210)

    The handlers run on the main thread.  A handler returns the gboolean
    it hands back to the generated D-Bus skeleton. *)

(** [on_handle_create_connection], up to and including the reply
    (lines 99-119).  [os] is what the operating system gives to
    [session_data_new] during this call. *)
Definition create_connection_reply (os : option sockets) : M SessionData :=
  g_mutex_lock MainThread;;
  g_mutex_unlock;;
  id ← lrand48_r;
  emit (EvSessionDataNew id);;
  match session_data_new os id with
  | None => g_error "Failed to allocate new session."
  | Some (session, client_fds) =>
      g_debug "Created connection with fds: %d, %d and id: %ld";;
      return_value_with_unix_fd_list client_fds id;;
      mret session
  end.

(** [on_handle_create_connection], from the insertion on
    (lines 120-125). *)
Definition create_connection_insert (session : SessionData) : M bool :=
  ret ← session_manager_insert session;
  if negb (ret =? 0)
  then g_error "Failed to add new session to session_manager."
  else mret true.

Definition on_handle_create_connection (os : option sockets) : M bool :=
  session ← create_connection_reply os;
  create_connection_insert session.

(** [on_handle_cancel] (lines 144-170). *)
Definition on_handle_cancel (id : Z) : M bool :=
  g_info "on_handle_cancel for id 0x%x";;
  g_mutex_lock MainThread;;
  g_mutex_unlock;;
  session ← session_manager_lookup_id id;
  match session with
  | None =>
      g_warning "no active session for id: 0x%x";;
      mret false
  | Some _ =>
      g_info "canceling command for session 0x%x";;
      return_value TSS2_RC_SUCCESS;;
      mret true
  end.

(** [on_handle_set_locality] (lines 182-210). *)
Definition on_handle_set_locality (id : Z) (locality : Z) : M bool :=
  g_info "on_handle_set_locality for id 0x%x";;
  g_mutex_lock MainThread;;
  g_mutex_unlock;;
  session ← session_manager_lookup_id id;
  match session with
  | None =>
      g_warning "no active session for id: 0x%x";;
      mret false
  | Some _ =>
      g_info "setting locality for session 0x%x to: 0x%x";;
      return_value TSS2_RC_SUCCESS;;
      mret true
  end.

(** ** Shutdown on a Unix signal (lines 274-308) *)

(** [main_loop_quit (loop)]. *)
Definition main_loop_quit : M unit :=
  g_info "main_loop_quit";;
  st ← get;
  match g_loop st with
  | None => mret tt
  | Some l =>
      emit EvMainLoopIsRunning;;
      if is_running l
      then emit EvMainLoopQuit;;
           put (set_g_loop (Some {| is_running := false |}) st)
      else mret tt
  end.

(** [signal_handler (signum)]. *)
Definition signal_handler (signum : Z) : M unit :=
  g_info "handling signal";;
  main_loop_quit.

(** ** Initialization (lines 317-428) *)

(** What the environment answers during initialization: the results of
    [open] and [read] on the entropy source and the [long int] that
    [rand_seed] then holds, whether [session_manager_new] returns an
    object, the code [tcti_initialize] returns, and what [thread_start]
    returns for each stage. *)
Record init_env := {
  open_ret : Z;
  read_ret : Z;
  rand_seed : Z;
  manager_new_ok : bool;
  tcti_rc : Z;
  start_ret : stage -> Z
}.

(** [seed_rand_data (TABD_RAND_FILE, &data->rand_data)]. *)
Definition seed_rand_data (env : init_env) : M Z :=
  g_debug "opening entropy source: %s";;
  emit EvOpen;;
  if open_ret env =? -1
  then g_warning "failed to open entropy source %s: %s";; mret 1
  else
    g_debug "reading from entropy source: %s";;
    emit EvRead;;
    if read_ret env =? -1
    then g_warning "failed to read from entropy source %s, %s";; mret 1
    else
      g_debug "seeding rand with %ld";;
      srand48_r (rand_seed env);;
      mret 0.

(** [signal (signum, signal_handler)]. *)
Definition signal (signum : Z) : M unit := fun st =>
  Run (Returned tt) (set_signals (signum :: signals st) st) [EvSignal signum].

(** [session_manager_new ()]. *)
Definition session_manager_new (env : init_env) : M unit := fun st =>
  Run (Returned tt)
      (set_manager (if manager_new_ok env then Some ∅ else None) st)
      [EvSessionManagerNew].

(** [tcti_initialize (data->tcti)]. *)
Definition tcti_initialize (env : init_env) : M Z := fun st =>
  Run (Returned (tcti_rc env))
      (set_tcti_initialized (tcti_rc env =? TSS2_RC_SUCCESS) st)
      [EvTctiInitialize].

Definition get_stage (s : stage) (st : tabd) : option stage_obj :=
  match s with
  | CommandSourceStage => command_source st
  | TabStage => tab st
  | ResponseSinkStage => response_sink st
  end.

Definition set_stage (s : stage) (v : option stage_obj) : tabd -> tabd :=
  match s with
  | CommandSourceStage => set_command_source v
  | TabStage => set_tab v
  | ResponseSinkStage => set_response_sink v
  end.

(** [command_source_new], [tab_new] and [response_sink_new]: the result is
    stored in its field of [gmain_data_t]. *)
Definition stage_new (s : stage) : M unit := fun st =>
  Run (Returned tt) (set_stage s (Some new_stage) st) [EvStageNew s].

(** [source_add_sink (SOURCE (source), SINK (sink))]. *)
Definition source_add_sink (source sink : stage) : M unit := fun st =>
  Run (Returned tt)
      (set_stage source
         ((fun o => {| so_sink := Some sink; so_started := so_started o |})
            <$> get_stage source st) st)
      [EvSourceAddSink source sink].

(** [thread_start (THREAD (s))]: the thread runs when the call returns 0. *)
Definition thread_start (env : init_env) (s : stage) : M Z := fun st =>
  Run (Returned (start_ret env s))
      (set_stage s
         ((fun o => {| so_sink := so_sink o;
                       so_started := (start_ret env s =? 0) |})
            <$> get_stage s st) st)
      [EvThreadStart s].

(** [init_thread_func], which runs on the initialization thread. *)
Definition init_thread_func (env : init_env) : M unit :=
  g_info "init_thread_func start";;
  g_mutex_lock InitThread;;
  signal SIGINT;;
  signal SIGTERM;;
  seeded ← seed_rand_data env;
  (if negb (seeded =? 0)
   then g_error "failed to seed random number generator"
   else mret tt);;
  session_manager_new env;;
  st ← get;
  (if manager st is None
   then g_error "failed to allocate connection_manager"
   else mret tt);;
  g_debug "SessionManager: 0x%x";;
  rc ← tcti_initialize env;
  (if negb (rc =? TSS2_RC_SUCCESS)
   then g_error "failed to initialize TCTI: 0x%x"
   else mret tt);;
  stage_new CommandSourceStage;;
  g_debug "created session source: 0x%x";;
  stage_new TabStage;;
  g_debug "created tab: 0x%x";;
  stage_new ResponseSinkStage;;
  g_debug "created response source: 0x%x";;
  source_add_sink CommandSourceStage TabStage;;
  source_add_sink TabStage ResponseSinkStage;;
  ret ← thread_start env CommandSourceStage;
  (if negb (ret =? 0)
   then g_error "failed to start connection_source"
   else mret tt);;
  ret ← thread_start env TabStage;
  (if negb (ret =? 0)
   then g_error "failed to start Tab: %s"
   else mret tt);;
  ret ← thread_start env ResponseSinkStage;
  (if negb (ret =? 0)
   then g_error "failed to start response_source"
   else mret tt);;
  g_mutex_unlock;;
  g_info "init_thread_func done".

(** The state [main] hands to the initialization thread and to the main
    loop: [gmain_data = { 0 }], the mutex initialized, the loop created
    and entered. *)
Definition initial : tabd :=
  {| g_loop := Some {| is_running := true |}; manager := None;
     command_source := None; response_sink := None; tab := None;
     rand_data := 0; init_mutex := Free; tcti_initialized := false;
     signals := [] |}.

(** ** Reading a run *)

(** The ids that the CreateConnection replies of a run carry. *)
Definition reply_ids (es : list event) : list Z :=
  omap (fun e => if e is EvReturnFds _ id then Some id else None) es.

(** The codes that the Cancel and SetLocality replies of a run carry. *)
Definition reply_codes (es : list event) : list Z :=
  omap (fun e => if e is EvReturnValue rc then Some rc else None) es.

(** Logging and taking or releasing [init_mutex] touch neither the
    registry nor the generator nor the pipeline; every other call does. *)
Definition touches_daemon (e : event) : bool :=
  match e with
  | EvLog _ _ | EvMutexLock | EvMutexUnlock => false
  | _ => true
  end.

(** No call of the run touches the daemon before the run has taken and
    released [init_mutex]. *)
Fixpoint waits_first (es : list event) : bool :=
  match es with
  | [] => true
  | EvMutexLock :: EvMutexUnlock :: _ => true
  | e :: es' => negb (touches_daemon e) && waits_first es'
  end.

Definition is_unlock (e : event) : bool :=
  if e is EvMutexUnlock then true else false.

(** How often a run releases [init_mutex]. *)
Definition unlocks (es : list event) : nat :=
  length (List.filter is_unlock es).

(** The calls of a signal handler that are logging or belong to the
    GMainLoop interface. *)
Definition logs_or_drives_loop (e : event) : bool :=
  match e with
  | EvLog _ _ | EvMainLoopIsRunning | EvMainLoopQuit => true
  | _ => false
  end.

(** The pipeline as [init_thread_func] leaves it when it succeeds: the
    three stages exist, CommandSource feeds Tab, Tab feeds ResponseSink,
    and the three threads are started. *)
Definition pipeline_running (st : tabd) : Prop :=
  command_source st =
    Some {| so_sink := Some TabStage; so_started := true |} /\
  tab st = Some {| so_sink := Some ResponseSinkStage; so_started := true |} /\
  response_sink st = Some {| so_sink := None; so_started := true |}.


(** The failures of initialization that the error-handling design calls
    fatal. *)
Definition init_failure (env : init_env) : Prop :=
  open_ret env = -1 \/ read_ret env = -1 \/
  tcti_rc env <> TSS2_RC_SUCCESS \/
  exists s, start_ret env s <> 0.

Local Open Scope list_scope.

(** ** The handle array of the CreateConnection reply (lines 54-70) *)



(** ** The callbacks of [g_bus_own_name] on the process state
    (lines 216-222 and 287-296) *)

(** [on_bus_acquired]. *)
Definition on_bus_acquired : M unit := g_info "on_bus_acquired: %s".

(** [on_name_lost]: [data->loop] is the loop that [g_loop] points to. *)
Definition on_name_lost : M unit :=
  g_info "on_name_lost: %s";;
  main_loop_quit.

Definition is_quit (e : event) : bool :=
  if e is EvMainLoopQuit then true else false.

(** How often a run calls [g_main_loop_quit]. *)
Definition quits (es : list event) : nat :=
  length (List.filter is_quit es).

(** [es] followed by the calls of the run [r]. *)
Definition prepend {A} (es : list event) (r : run A) : run A :=
  Run (result r) (final r) (es ++ events r).

(** Initialization meets no failure: the entropy source opens and reads,
    the SessionManager is allocated, the transport initializes and the
    three threads start. *)
Definition init_succeeds (env : init_env) : bool :=
  negb (open_ret env =? -1) && negb (read_ret env =? -1) &&
  manager_new_ok env && (tcti_rc env =? TSS2_RC_SUCCESS) &&
  (start_ret env CommandSourceStage =? 0) &&
  (start_ret env TabStage =? 0) &&
  (start_ret env ResponseSinkStage =? 0).

(** The calls of a successful [init_thread_func] before it releases
    [init_mutex]. *)
Definition init_calls (env : init_env) : list event :=
  [ EvLog LInfo "init_thread_func start"; EvMutexLock;
    EvSignal SIGINT; EvSignal SIGTERM;
    EvLog LDebug "opening entropy source: %s"; EvOpen;
    EvLog LDebug "reading from entropy source: %s"; EvRead;
    EvLog LDebug "seeding rand with %ld"; EvSrand48 (rand_seed env);
    EvSessionManagerNew; EvLog LDebug "SessionManager: 0x%x";
    EvTctiInitialize;
    EvStageNew CommandSourceStage;
    EvLog LDebug "created session source: 0x%x";
    EvStageNew TabStage; EvLog LDebug "created tab: 0x%x";
    EvStageNew ResponseSinkStage;
    EvLog LDebug "created response source: 0x%x";
    EvSourceAddSink CommandSourceStage TabStage;
    EvSourceAddSink TabStage ResponseSinkStage;
    EvThreadStart CommandSourceStage; EvThreadStart TabStage;
    EvThreadStart ResponseSinkStage ].

(** The first step of [init_thread_func] that fails in the environment
    [env], by the message of its [g_error]; [None] when no step fails. *)
Definition init_error (env : init_env) : option string :=
  if (open_ret env =? -1) || (read_ret env =? -1)
  then Some "failed to seed random number generator"
  else if negb (manager_new_ok env)
  then Some "failed to allocate connection_manager"
  else if negb (tcti_rc env =? TSS2_RC_SUCCESS)
  then Some "failed to initialize TCTI: 0x%x"
  else if negb (start_ret env CommandSourceStage =? 0)
  then Some "failed to start connection_source"
  else if negb (start_ret env TabStage =? 0)
  then Some "failed to start Tab: %s"
  else if negb (start_ret env ResponseSinkStage =? 0)
  then Some "failed to start response_source"
  else None.

(** The calls of a run that create, wire or start a pipeline stage. *)
Definition builds_pipeline (e : event) : bool :=
  match e with
  | EvStageNew _ | EvSourceAddSink _ _ | EvThreadStart _ => true
  | _ => false
  end.

(** ** Exporting the interface on the bus (lines 234-269) *)

(** The three handlers of the control plane, as callbacks. *)
Inductive callback :=
| OnHandleCreateConnection
| OnHandleCancel
| OnHandleSetLocality.

(** What [tabd.c] can see of the [Tpm2AccessBroker] skeleton
    (tabd-generated.h is not part of the sources): the handlers connected
    to its signals, in the order of connection. *)
Record Tpm2AccessBroker := {
  connections : list (string * callback)
}.

(** The calls of [on_name_acquired]. *)
Inductive bus_call :=
| BusLog (level : log_level) (format : string)
| BusSkeletonNew
| BusSignalConnect (detailed_signal : string) (c_handler : callback)
| BusSkeletonExport.

(** [on_name_acquired (connection, name, user_data)].  [user_data] is NULL
    or points to the [gmain_data_t], of which the function reads and writes
    the [skeleton] field only: [Some None] is a [gmain_data_t] whose
    skeleton is NULL.  [export_ok] is what
    [g_dbus_interface_skeleton_export] returns.  The result is the skeleton
    that the function leaves in [gmain_data_t]. *)
Definition on_name_acquired
    (export_ok : bool) (user_data : option (option Tpm2AccessBroker))
  : outcome Tpm2AccessBroker * list bus_call :=
  let calls := [BusLog LInfo "on_name_acquired: %s"] in
  match user_data with
  | None =>
      (Aborted, calls ++ [BusLog LError "bus_acquired but user_data is NULL"])
  | Some skeleton =>
      let '(skeleton, calls) :=
        match skeleton with
        | None => ({| connections := [] |}, calls ++ [BusSkeletonNew])
        | Some sk => (sk, calls)
        end in
      let connect detailed_signal c_handler '(sk, calls) :=
        ({| connections := connections sk ++ [(detailed_signal, c_handler)] |},
         calls ++ [BusSignalConnect detailed_signal c_handler]) in
      let '(skeleton, calls) :=
        connect "handle-set-locality" OnHandleSetLocality
          (connect "handle-cancel" OnHandleCancel
             (connect "handle-create-connection" OnHandleCreateConnection
                (skeleton, calls))) in
      let calls := calls ++ [BusSkeletonExport] in
      if export_ok
      then (Returned skeleton, calls)
      else (Returned skeleton,
            calls ++ [BusLog LWarning "failed to export interface: %s"])
  end.

(** How often the handler [c] is connected to a skeleton. *)
Definition connected_times (c : callback) (sk : Tpm2AccessBroker) : nat :=
  length (List.filter
            (fun p => match snd p, c with
                      | OnHandleCreateConnection, OnHandleCreateConnection
                      | OnHandleCancel, OnHandleCancel
                      | OnHandleSetLocality, OnHandleSetLocality => true
                      | _, _ => false
                      end)
            (connections sk)).

(** ** Startup and shutdown (lines 439-557) *)

(** [GBusType] of <gio/gio.h>. *)
Definition G_BUS_TYPE_NONE : Z := 0.
Definition G_BUS_TYPE_SYSTEM : Z := 1.
Definition G_BUS_TYPE_SESSION : Z := 2.

(** The two fields of [tabd_options_t] (tabd-priv.h is not part of the
    sources) that [tabd.c] uses: the bus type, and whether [tcti_options]
    points to an object. *)
Record tabd_options_t := {
  bus : Z;
  tcti_options : bool
}.

(** What [g_option_context_parse] stores for a command line that it
    accepts: the argument of --logger when it is given, and whether
    --system is given. *)
Record parsed := {
  given_logger : option string;
  given_system : bool
}.

(** The objects that [main] releases. *)
Inductive object :=
| ObjSkeleton
| ObjStage (s : stage)
| ObjManager
| ObjTctiOptions.

(** The calls of [parse_opts], [thread_cleanup] and [main]. *)
Inductive start_call :=
| ScLog (level : log_level) (format : string)
| ScTctiOptionsNew
| ScOptionContextNew
| ScAddMainEntries
| ScAddGroup
| ScOptionContextParse
| ScPrint (format : string)
| ScClearError
| ScSetLogger (name : string)
| ScOptionContextFree
| ScGetTcti
| ScMutexInit
| ScMainLoopNew
| ScThreadNew
| ScBusOwnName (bus_type : Z)
| ScGetType (name : string)
| ScMainLoopRun
| ScInitThreadJoin
| ScBusUnownName
| ScThreadCancel (s : stage)
| ScThreadJoin (s : stage)
| ScUnref (o : object).

(** [parse_opts (argc, argv, options)], in the runs in which
    [g_option_context_parse] returns ([parse_opts_with_help] below adds the
    request for help, on which GLib ends the process inside that call).
    [set_logger] is the function of logging.c, which is not part of the
    sources; [cmdline] is what [g_option_context_parse] makes of [argv],
    [None] when it rejects it.  The result is the [gint] returned,
    [*options] as it is left, and the calls. *)
Definition parse_opts
    (set_logger : string -> Z) (cmdline : option parsed)
    (options : tabd_options_t)
  : Z * tabd_options_t * list start_call :=
  let logger_name := "stdout" in
  let system_bus := false in
  let options := {| bus := bus options; tcti_options := true |} in
  let calls :=
    [ ScLog LDebug "creating tcti_options object"; ScTctiOptionsNew;
      ScOptionContextNew; ScAddMainEntries; ScAddGroup;
      ScOptionContextParse ] in
  match cmdline with
  | None =>
      (1, options,
       calls ++ [ScPrint "Failed to initialize: %s"; ScClearError;
                 ScOptionContextFree])
  | Some p =>
      let logger_name := default logger_name (given_logger p) in
      let system_bus := system_bus || given_system p in
      let options :=
        {| bus := if system_bus then G_BUS_TYPE_SYSTEM else G_BUS_TYPE_SESSION;
           tcti_options := tcti_options options |} in
      let calls := calls ++ [ScSetLogger logger_name] in
      if set_logger logger_name =? -1
      then (1, options,
            calls ++ [ScPrint "Unknown logger: %s, try --help";
                      ScOptionContextFree])
      else (0, options, calls ++ [ScOptionContextFree])
  end.

(** What [g_option_context_parse] does with [argv].  The option context of
    [parse_opts] has help enabled, which is GLib's default and is never
    switched off: when [argv] asks for help, GLib prints the help text and
    ends the process with [exit (0)] inside the call.  Otherwise the call
    returns, and [cmdline] is what [parse_opts] then finds. *)
Inductive parse_request :=
| HelpRequested
| Parsed (cmdline : option parsed).

(** How a run of [parse_opts] ends: it returns, or the process exits
    inside it. *)
Inductive ending (A : Type) :=
| Returns (a : A)
| Exits (status : Z).
Arguments Returns {A} a.
Arguments Exits {A} status.

(** [parse_opts (argc, argv, options)] on every command line: on a request
    for help it gets as far as [g_option_context_parse]; otherwise it is
    [parse_opts] above. *)
Definition parse_opts_with_help
    (set_logger : string -> Z) (request : parse_request)
    (options : tabd_options_t)
  : ending (Z * tabd_options_t) * list start_call :=
  match request with
  | HelpRequested =>
      (Exits 0,
       [ ScLog LDebug "creating tcti_options object"; ScTctiOptionsNew;
         ScOptionContextNew; ScAddMainEntries; ScAddGroup;
         ScOptionContextParse ])
  | Parsed cmdline =>
      let '(ret, options, calls) := parse_opts set_logger cmdline options in
      (Returns (ret, options), calls)
  end.

(** [thread_cleanup (thread)]. *)
Definition thread_cleanup (s : stage) : list start_call :=
  [ScThreadCancel s; ScThreadJoin s; ScUnref (ObjStage s)].

(** What [main] meets: the command line and the logger table, whether
    [tcti_options_get_tcti] returns an object, how the time between
    [g_main_loop_run] and the return of [g_thread_join] ends (the loop is
    quit and the initialization thread has finished; a [g_error] of some
    thread terminates the process; or the loop is never quit), and whether
    a skeleton has been stored in [gmain_data] by then. *)
Record main_env := {
  me_set_logger : string -> Z;
  me_cmdline : option parsed;
  me_tcti : bool;
  me_run : outcome unit;
  me_skeleton : bool
}.

(** [main (argc, argv)]: how it ends, with its exit status when it
    returns, and its calls. *)
Definition main (env : main_env) : outcome Z * list start_call :=
  let options := {| bus := 0; tcti_options := false |} in
  let calls := [ScLog LInfo "tabd startup"] in
  let '(ret, options, parse_calls) :=
    parse_opts (me_set_logger env) (me_cmdline env) options in
  let calls := calls ++ parse_calls in
  if negb (ret =? 0) then (Returned 1, calls)
  else
    let calls := calls ++ [ScGetTcti] in
    if negb (me_tcti env)
    then (Aborted,
          calls ++ [ScLog LError "Failed to get TCTI object from TctiOptions"])
    else
      let calls :=
        calls ++
        [ ScMutexInit; ScMainLoopNew; ScThreadNew; ScBusOwnName (bus options);
          ScGetType "thread"; ScGetType "sink"; ScGetType "source";
          ScLog LInfo "entering g_main_loop"; ScMainLoopRun ] in
      match me_run env with
      | Returned _ =>
          let calls :=
            calls ++
            [ ScLog LInfo "g_main_loop_run done, cleaning up";
              ScInitThreadJoin; ScBusUnownName ] in
          let calls :=
            if me_skeleton env then calls ++ [ScUnref ObjSkeleton]
            else calls in
          let calls := calls ++ thread_cleanup CommandSourceStage in
          let calls := calls ++ thread_cleanup TabStage in
          let calls := calls ++ thread_cleanup ResponseSinkStage in
          (Returned 0, calls ++ [ScUnref ObjManager; ScUnref ObjTctiOptions])
      | Aborted => (Aborted, calls)
      | Blocked => (Blocked, calls)
      | Undefined => (Undefined, calls)
      end.

(** [a] occurs in [l] before an occurrence of [b]. *)
Definition precedes {A} (a b : A) (l : list A) : Prop :=
  exists l1 l2 l3, l = (l1 ++ a :: l2 ++ b :: l3)%list.

(** ** Concrete states *)

(** An environment in which initialization succeeds, with seed 1. *)
Definition env_ok : init_env :=
  {| open_ret := 3; read_ret := 8; rand_seed := 1; manager_new_ok := true;
     tcti_rc := 0; start_ret := fun _ => 0 |}.

(** The same environment with a transport that fails to initialize. *)
Definition env_tcti_fails : init_env :=
  {| open_ret := 3; read_ret := 8; rand_seed := 1; manager_new_ok := true;
     tcti_rc := 0xA000A; start_ret := fun _ => 0 |}.

(** The daemon after a successful initialization. *)
Definition ready : tabd := final (init_thread_func env_ok initial).

Definition some_sockets : option sockets :=
  Some {| client_fd0 := 10; client_fd1 := 11;
          server_command_fd := 12; server_response_fd := 13 |}.

(** The daemon after one client has connected; its id is the first
    draw. *)
Definition connected : tabd :=
  final (on_handle_create_connection some_sockets ready).
Definition first_id : Z := 89400484.

(** The same daemon while the client's 12-byte command of the spec's first
    scenario is in flight. *)
Definition in_flight : tabd :=
  set_manager
    (alter (fun s =>
              {| sd_id := sd_id s; sd_locality := sd_locality s;
                 sd_command_endpoint := sd_command_endpoint s;
                 sd_response_endpoint := sd_response_endpoint s;
                 sd_pending :=
                   Some [0x80; 0x01; 0; 0; 0; 0x0C; 0; 0; 0x01; 0x44; 0; 0] |})
           first_id <$> manager connected)
    connected.

(** The daemon seeded with 1 after [n] draws of its generator. *)
Definition after_draws (n : N) : tabd :=
  set_rand_data (Rand48.after n (rand_data ready)) ready.


Definition is_error (e : event) : bool :=
  if e is EvLog LError _ then true else false.

(** How often a run logs at the error level. *)
Definition errors (es : list event) : nat :=
  length (List.filter is_error es).

Definition is_context_free (c : start_call) : bool :=
  if c is ScOptionContextFree then true else false.

(** How often a run of [parse_opts] frees its option context. *)
Definition context_frees (calls : list start_call) : nat :=
  length (List.filter is_context_free calls).

(** The calls of [main] that come after [parse_opts] and before the
    cleanup. *)
Definition starts_daemon (c : start_call) : bool :=
  match c with
  | ScGetTcti | ScMutexInit | ScMainLoopNew | ScThreadNew | ScBusOwnName _
  | ScGetType _ | ScMainLoopRun => true
  | _ => false
  end.

(** The logger that [parse_opts] selects for a command line. *)
Definition selected_logger (p : parsed) : string :=
  default "stdout" (given_logger p).

(** A logger table that knows the two loggers of the help text. *)
Definition known_loggers (name : string) : Z :=
  if String.eqb name "stdout" || String.eqb name "syslog" then 0 else -1.

(** A run of the daemon started with --system that is shut down after
    the name has been acquired. *)
Definition main_env_system : main_env :=
  {| me_set_logger := known_loggers;
     me_cmdline := Some {| given_logger := None; given_system := true |};
     me_tcti := true; me_run := Returned tt; me_skeleton := true |}.

(** * Properties *)

(** ** The generator *)

Lemma lrand48_r_bound (x : Z) :
  0 <= fst (Rand48.lrand48_r x) < 2 ^ 31.
Proof.
  unfold Rand48.lrand48_r, Rand48.iterate, Rand48.modulus. cbn [fst].
  rewrite Z.shiftr_div_pow2 by lia.
  pose proof (Z.mod_pos_bound (Rand48.a * x + Rand48.c) (2 ^ 48)) as Hm.
  split.
  - apply Z.div_pos; lia.
  - apply Z.div_lt_upper_bound; lia.
Qed.

(** ** Runs of the handlers, case by case *)

Ltac run_program :=
  unfold mbind, tabd_bind, mret, tabd_ret, emit, get, put,
    g_debug, g_info, g_warning, g_error, g_mutex_lock, g_mutex_unlock,
    return_value, return_value_with_unix_fd_list;
  cbn.

Ltac open_state st :=
  destruct st as [lp mg cs rs tb rd mx ti sg]; cbn in *; subst.

Section Handlers.

Variables (st : tabd) (m : SessionManager.t) (id : Z).
Hypothesis unlocked : init_mutex st = Free.
Hypothesis registry : manager st = Some m.

Lemma on_handle_cancel_found (s : SessionData) :
  m !! id = Some s ->
  on_handle_cancel id st =
    Run (Returned true) st
      [ EvLog LInfo "on_handle_cancel for id 0x%x"; EvMutexLock;
        EvMutexUnlock; EvLookupId id;
        EvLog LInfo "canceling command for session 0x%x";
        EvReturnValue TSS2_RC_SUCCESS ].
Proof.
  intros Hs. open_state st.
  unfold on_handle_cancel, session_manager_lookup_id, SessionManager.lookup_id.
  run_program. rewrite Hs. reflexivity.
Qed.

Lemma on_handle_cancel_unknown :
  m !! id = None ->
  on_handle_cancel id st =
    Run (Returned false) st
      [ EvLog LInfo "on_handle_cancel for id 0x%x"; EvMutexLock;
        EvMutexUnlock; EvLookupId id;
        EvLog LWarning "no active session for id: 0x%x" ].
Proof.
  intros Hs. open_state st.
  unfold on_handle_cancel, session_manager_lookup_id, SessionManager.lookup_id.
  run_program. rewrite Hs. reflexivity.
Qed.

Lemma on_handle_set_locality_found (locality : Z) (s : SessionData) :
  m !! id = Some s ->
  on_handle_set_locality id locality st =
    Run (Returned true) st
      [ EvLog LInfo "on_handle_set_locality for id 0x%x"; EvMutexLock;
        EvMutexUnlock; EvLookupId id;
        EvLog LInfo "setting locality for session 0x%x to: 0x%x";
        EvReturnValue TSS2_RC_SUCCESS ].
Proof.
  intros Hs. open_state st.
  unfold on_handle_set_locality, session_manager_lookup_id,
    SessionManager.lookup_id.
  run_program. rewrite Hs. reflexivity.
Qed.

Lemma on_handle_set_locality_unknown (locality : Z) :
  m !! id = None ->
  on_handle_set_locality id locality st =
    Run (Returned false) st
      [ EvLog LInfo "on_handle_set_locality for id 0x%x"; EvMutexLock;
        EvMutexUnlock; EvLookupId id;
        EvLog LWarning "no active session for id: 0x%x" ].
Proof.
  intros Hs. open_state st.
  unfold on_handle_set_locality, session_manager_lookup_id,
    SessionManager.lookup_id.
  run_program. rewrite Hs. reflexivity.
Qed.

End Handlers.

Section CreateConnection.

Variables (st : tabd) (s : sockets).
Hypothesis unlocked : init_mutex st = Free.

Let id : Z := fst (Rand48.lrand48_r (rand_data st)).
Let drawn : tabd := set_rand_data (snd (Rand48.lrand48_r (rand_data st))) st.
Let session : SessionData :=
  {| sd_id := id; sd_locality := 0;
     sd_command_endpoint := server_command_fd s;
     sd_response_endpoint := server_response_fd s;
     sd_pending := None |}.

Lemma create_connection_reply_sent :
  create_connection_reply (Some s) st =
    Run (Returned session) drawn
      [ EvMutexLock; EvMutexUnlock; EvLrand48 id; EvSessionDataNew id;
        EvLog LDebug "Created connection with fds: %d, %d and id: %ld";
        EvReturnFds (client_fd0 s, client_fd1 s) id ].
Proof.
  subst id drawn session. open_state st. reflexivity.
Qed.

Lemma create_connection_no_session :
  on_handle_create_connection None st =
    Run Aborted drawn
      [ EvMutexLock; EvMutexUnlock; EvLrand48 id; EvSessionDataNew id;
        EvLog LError "Failed to allocate new session." ].
Proof.
  subst id drawn session. open_state st. reflexivity.
Qed.

Lemma create_connection_inserted (m : SessionManager.t) :
  manager st = Some m ->
  m !! id = None ->
  on_handle_create_connection (Some s) st =
    Run (Returned true) (set_manager (Some (<[id := session]> m)) drawn)
      [ EvMutexLock; EvMutexUnlock; EvLrand48 id; EvSessionDataNew id;
        EvLog LDebug "Created connection with fds: %d, %d and id: %ld";
        EvReturnFds (client_fd0 s, client_fd1 s) id; EvInsert id ].
Proof.
  intros Hm Hid. unfold on_handle_create_connection.
  unfold mbind at 1, tabd_bind at 1.
  rewrite create_connection_reply_sent. cbn [result final events].
  subst id drawn session. open_state st.
  unfold create_connection_insert, session_manager_insert,
    SessionManager.insert.
  run_program. rewrite Hid. reflexivity.
Qed.

Lemma create_connection_duplicate (m : SessionManager.t) (old : SessionData) :
  manager st = Some m ->
  m !! id = Some old ->
  on_handle_create_connection (Some s) st =
    Run Aborted drawn
      [ EvMutexLock; EvMutexUnlock; EvLrand48 id; EvSessionDataNew id;
        EvLog LDebug "Created connection with fds: %d, %d and id: %ld";
        EvReturnFds (client_fd0 s, client_fd1 s) id; EvInsert id;
        EvLog LError "Failed to add new session to session_manager." ].
Proof.
  intros Hm Hid. unfold on_handle_create_connection.
  unfold mbind at 1, tabd_bind at 1.
  rewrite create_connection_reply_sent. cbn [result final events].
  subst id drawn session. open_state st.
  unfold create_connection_insert, session_manager_insert,
    SessionManager.insert.
  run_program. rewrite Hid. reflexivity.
Qed.

Lemma create_connection_null_manager :
  manager st = None ->
  result (on_handle_create_connection (Some s) st) = Undefined.
Proof.
  intros Hm. unfold on_handle_create_connection.
  unfold mbind at 1, tabd_bind at 1.
  rewrite create_connection_reply_sent. cbn [result final events].
  subst id drawn session. open_state st. reflexivity.
Qed.

End CreateConnection.

(** A handler that finds [init_mutex] held waits in [g_mutex_lock], and it
    has changed nothing by then. *)
Lemma handlers_block_on_held_mutex (st : tabd) (t : thread) :
  init_mutex st = Held t ->
  (forall os, result (on_handle_create_connection os st) = Blocked /\
              final (on_handle_create_connection os st) = st) /\
  (forall id, result (on_handle_cancel id st) = Blocked /\
              final (on_handle_cancel id st) = st) /\
  (forall id locality,
      result (on_handle_set_locality id locality st) = Blocked /\
      final (on_handle_set_locality id locality st) = st).
Proof.
  intros Hheld. open_state st. repeat split.
Qed.

(** ** Cancel *)

(** C1. Cancel on a session that is in the registry and has a command in
    flight: the handler looks the session up, logs, and replies
    TSS2_RC_SUCCESS.  No call follows the lookup but the log and the reply,
    the command stays pending and the process state is what it was: the
    reply code is a constant, not the result of a cancel operation. *)
Theorem cancel_replies_success_without_cancelling :
  (manager in_flight ≫= (.!! first_id)) ≫= sd_pending =
    Some [0x80; 0x01; 0; 0; 0; 0x0C; 0; 0; 0x01; 0x44; 0; 0] /\
  on_handle_cancel first_id in_flight =
    Run (Returned true) in_flight
      [ EvLog LInfo "on_handle_cancel for id 0x%x"; EvMutexLock;
        EvMutexUnlock; EvLookupId first_id;
        EvLog LInfo "canceling command for session 0x%x";
        EvReturnValue TSS2_RC_SUCCESS ].
Proof.
  split; [reflexivity |].
  eapply on_handle_cancel_found; reflexivity.
Qed.

(** C4. Cancel on a session that was created and never used (nothing is
    pending for it): the one reply of the handler carries TSS2_RC_SUCCESS,
    and the handler returns TRUE. *)
Theorem cancel_on_unused_session_replies_success :
  (manager connected ≫= (.!! first_id)) ≫= sd_pending = None /\
  result (on_handle_cancel first_id connected) = Returned true /\
  reply_codes (events (on_handle_cancel first_id connected)) =
    [TSS2_RC_SUCCESS].
Proof.
  split; [reflexivity |].
  erewrite on_handle_cancel_found by reflexivity.
  split; reflexivity.
Qed.

(** ** SetLocality *)

(** C2. SetLocality (id, 3) on a connected session whose locality is 0:
    the handler replies TSS2_RC_SUCCESS and returns TRUE, and the session
    in the registry still has locality 0 afterwards. *)
Theorem set_locality_leaves_locality :
  sd_locality <$> (manager connected ≫= (.!! first_id)) = Some 0 /\
  result (on_handle_set_locality first_id 3 connected) = Returned true /\
  reply_codes (events (on_handle_set_locality first_id 3 connected)) =
    [TSS2_RC_SUCCESS] /\
  sd_locality <$>
    (manager (final (on_handle_set_locality first_id 3 connected))
       ≫= (.!! first_id)) = Some 0.
Proof.
  split; [reflexivity |].
  erewrite on_handle_set_locality_found by reflexivity.
  repeat split; reflexivity.
Qed.

(** ** CreateConnection *)

(** C3. A CreateConnection that inserts its session into the registry:
    the insertion is the last call of the handler, which then returns
    TRUE.  Nothing is written to a wakeup descriptor of the
    CommandSource. *)
Theorem create_connection_ends_with_insert :
  on_handle_create_connection some_sockets ready =
    Run (Returned true) connected
      [ EvMutexLock; EvMutexUnlock; EvLrand48 first_id;
        EvSessionDataNew first_id;
        EvLog LDebug "Created connection with fds: %d, %d and id: %ld";
        EvReturnFds (10, 11) first_id; EvInsert first_id ] /\
  is_Some (manager connected ≫= (.!! first_id)).
Proof.
  split; [reflexivity |]. eexists. reflexivity.
Qed.



(** The id of a CreateConnection reply is the draw that [lrand48_r] makes
    from the generator state the handler starts in. *)
Lemma create_connection_reply_ids (st : tabd) (os : option sockets) :
  reply_ids (events (on_handle_create_connection os st)) = [] \/
  reply_ids (events (on_handle_create_connection os st)) =
    [fst (Rand48.lrand48_r (rand_data st))].
Proof.
  destruct (init_mutex st) as [|t] eqn:Hmx.
  2:{ left. open_state st. reflexivity. }
  destruct os as [s|].
  2:{ left. rewrite (create_connection_no_session st Hmx). reflexivity. }
  destruct (manager st) as [m|] eqn:Hmg.
  - destruct (m !! fst (Rand48.lrand48_r (rand_data st))) as [old|] eqn:Hid.
    + right. rewrite (create_connection_duplicate st s Hmx m old Hmg Hid).
      reflexivity.
    + right. rewrite (create_connection_inserted st s Hmx m Hmg Hid).
      reflexivity.
  - right. open_state st. reflexivity.
Qed.

(** C6, as stated, fails. The value 2^31 of the 64-bit domain is the id of
    no CreateConnection reply, whatever the state of the daemon; and in the
    daemon seeded with 1 the 44613th draw of the generator repeats the id
    that the 10821st draw gave. *)
Lemma session_ids_miss_values_and_repeat :
  (~ exists st os,
       In (2 ^ 31) (reply_ids (events (on_handle_create_connection os st)))) /\
  reply_ids
    (events (on_handle_create_connection some_sockets (after_draws 10820))) =
    [2128821330] /\
  reply_ids
    (events (on_handle_create_connection some_sockets (after_draws 44612))) =
    [2128821330].
Proof.
  split.
  - intros (st & os & Hin).
    destruct (create_connection_reply_ids st os) as [E | E];
      rewrite E in Hin.
    + destruct Hin.
    + destruct Hin as [Hin | []].
      pose proof (lrand48_r_bound (rand_data st)) as Hb.
      rewrite Hin in Hb. lia.
  - split; vm_compute; reflexivity.
Qed.

(** C6, amended. Every session id that a CreateConnection reply carries is
    the value that one [lrand48_r] draw from the seeded generator stores in
    the 64-bit id: a number from 0 to 2^31 - 1. *)
Theorem session_id_is_31_bit_draw (st : tabd) (os : option sockets) (id : Z) :
  In id (reply_ids (events (on_handle_create_connection os st))) ->
  id = fst (Rand48.lrand48_r (rand_data st)) /\ 0 <= id < 2 ^ 31.
Proof.
  intros Hin.
  destruct (create_connection_reply_ids st os) as [E | E];
    rewrite E in Hin.
  - destruct Hin.
  - destruct Hin as [<- | []].
    split; [reflexivity | apply lrand48_r_bound].
Qed.

Lemma session_id_is_31_bit_draw_witness :
  In first_id (reply_ids (events (on_handle_create_connection some_sockets ready))) /\
  first_id = fst (Rand48.lrand48_r (rand_data ready)) /\
  0 <= first_id < 2 ^ 31.
Proof.
  split.
  - vm_compute. left. reflexivity.
  - apply (session_id_is_31_bit_draw ready some_sockets first_id).
    vm_compute. left. reflexivity.
Defined.

(** ** The signal handler *)

(** C9, as stated, fails: on SIGINT in a daemon whose main loop runs, the
    calls of the signal handler are two log calls and two calls into the
    GMainLoop interface. *)
Lemma signal_handler_logs_and_quits_loop :
  events (signal_handler SIGINT ready) =
    [ EvLog LInfo "handling signal"; EvLog LInfo "main_loop_quit";
      EvMainLoopIsRunning; EvMainLoopQuit ] /\
  ~ Forall (fun e => logs_or_drives_loop e = false)
      (events (signal_handler SIGINT ready)).
Proof.
  split; [reflexivity |].
  intros H. apply Forall_inv in H. discriminate H.
Qed.

(** C9, amended. The signal handler logs "handling signal" and calls
    [main_loop_quit] on the global loop, which logs, and, when the loop
    pointer is set, asks whether the loop runs and quits it if it does.  It
    makes no other call and changes nothing of the process state but the
    loop. *)
Theorem signal_handler_calls (signum : Z) (st : tabd) :
  result (signal_handler signum st) = Returned tt /\
  events (signal_handler signum st) =
    ([ EvLog LInfo "handling signal"; EvLog LInfo "main_loop_quit" ] ++
     match g_loop st with
     | None => []
     | Some l =>
         EvMainLoopIsRunning :: (if is_running l then [EvMainLoopQuit] else [])
     end)%list /\
  final (signal_handler signum st) =
    match g_loop st with
    | None => st
    | Some l =>
        if is_running l
        then set_g_loop (Some {| is_running := false |}) st
        else st
    end.
Proof.
  open_state st. destruct lp as [[[|]]|]; repeat split.
Qed.

(** ** The window between the reply and the insertion *)



(** ** Running a program one call at a time *)

Lemma bind_returned {A B} (m : M A) (k : A -> M B) (st st' : tabd) a es :
  m st = Run (Returned a) st' es ->
  (m ≫= k) st = prepend es (k a st').
Proof.
  intros E. unfold mbind, tabd_bind. rewrite E. reflexivity.
Qed.

Lemma bind_aborted {A B} (m : M A) (k : A -> M B) (st st' : tabd) es :
  m st = Run Aborted st' es ->
  (m ≫= k) st = Run Aborted st' es.
Proof.
  intros E. unfold mbind, tabd_bind. rewrite E. reflexivity.
Qed.

Ltac tidy_state :=
  cbn [set_g_loop set_manager set_command_source set_response_sink set_tab
       set_rand_data set_init_mutex set_tcti_initialized set_signals
       g_loop manager command_source response_sink tab rand_data init_mutex
       tcti_initialized signals get_stage set_stage
       fmap option_fmap option_map so_sink so_started].

Ltac step :=
  first [ erewrite bind_returned by reflexivity
        | erewrite bind_aborted by reflexivity ];
  cbn beta; tidy_state.

(** ** Seeding the generator *)

Section Seed.

Variables (env : init_env) (st : tabd).

Lemma seed_rand_data_open_fails :
  open_ret env = -1 ->
  seed_rand_data env st =
    Run (Returned 1) st
      [ EvLog LDebug "opening entropy source: %s"; EvOpen;
        EvLog LWarning "failed to open entropy source %s: %s" ].
Proof.
  intros E. unfold seed_rand_data. rewrite E. reflexivity.
Qed.

Lemma seed_rand_data_read_fails :
  open_ret env <> -1 ->
  read_ret env = -1 ->
  seed_rand_data env st =
    Run (Returned 1) st
      [ EvLog LDebug "opening entropy source: %s"; EvOpen;
        EvLog LDebug "reading from entropy source: %s"; EvRead;
        EvLog LWarning "failed to read from entropy source %s, %s" ].
Proof.
  intros Ho E. apply Z.eqb_neq in Ho.
  unfold seed_rand_data. rewrite Ho, E. reflexivity.
Qed.

Lemma seed_rand_data_seeds :
  open_ret env <> -1 ->
  read_ret env <> -1 ->
  seed_rand_data env st =
    Run (Returned 0) (set_rand_data (Rand48.srand48_r (rand_seed env)) st)
      [ EvLog LDebug "opening entropy source: %s"; EvOpen;
        EvLog LDebug "reading from entropy source: %s"; EvRead;
        EvLog LDebug "seeding rand with %ld"; EvSrand48 (rand_seed env) ].
Proof.
  intros Ho Hr. apply Z.eqb_neq in Ho, Hr.
  unfold seed_rand_data. rewrite Ho, Hr. reflexivity.
Qed.

End Seed.

(** ** Initialization *)

(** A run of [init_thread_func] that finds [init_mutex] free.  When the
    environment lets every step succeed it returns, having released the
    mutex once, as its last call but one; otherwise [g_error] ends the
    process with the mutex still held by the initialization thread. *)
Lemma init_thread_func_outcome (env : init_env) (st : tabd) :
  init_mutex st = Free ->
  let r := init_thread_func env st in
  if init_succeeds env
  then
    result r = Returned tt /\
    events r =
      (init_calls env ++
       [EvMutexUnlock; EvLog LInfo "init_thread_func done"])%list /\
    init_mutex (final r) = Free /\
    rand_data (final r) = Rand48.srand48_r (rand_seed env) /\
    tcti_initialized (final r) = true /\
    pipeline_running (final r)
  else
    result r = Aborted /\ unlocks (events r) = 0%nat /\
    init_mutex (final r) = Held InitThread.
Proof.
  intros Hmx r. subst r. unfold init_thread_func, init_succeeds.
  destruct st as [lp mg cs rs tb rd mx ti sg]. cbn in Hmx. subst mx.
  do 4 step.
  destruct (Z.eqb_spec (open_ret env) (-1)) as [Ho | Ho].
  { erewrite bind_returned by (apply seed_rand_data_open_fails; exact Ho).
    cbn beta. tidy_state. step. repeat split. }
  destruct (Z.eqb_spec (read_ret env) (-1)) as [Hr | Hr].
  { erewrite bind_returned by (apply seed_rand_data_read_fails; assumption).
    cbn beta. tidy_state. step. repeat split. }
  erewrite bind_returned by (apply seed_rand_data_seeds; assumption).
  cbn beta. tidy_state. do 3 step.
  destruct (manager_new_ok env).
  2:{ step. repeat split. }
  do 3 step.
  destruct (Z.eqb_spec (tcti_rc env) TSS2_RC_SUCCESS) as [Hrc | Hrc].
  2:{ step. repeat split. }
  do 10 step.
  destruct (Z.eqb_spec (start_ret env CommandSourceStage) 0) as [Hcs | Hcs].
  2:{ step. repeat split. }
  do 2 step.
  destruct (Z.eqb_spec (start_ret env TabStage) 0) as [Htb | Htb].
  2:{ step. repeat split. }
  do 2 step.
  destruct (Z.eqb_spec (start_ret env ResponseSinkStage) 0) as [Hrs | Hrs].
  2:{ step. repeat split. }
  do 2 step.
  cbn [prepend result final events app g_info emit andb negb].
  tidy_state. repeat split.
Qed.


(** ** The initialization barrier *)




(** ** Failures of initialization *)

(** C8. When the entropy source cannot be opened or read, when the
    transport fails to initialize or when one of the three pipeline threads
    fails to start, [init_thread_func] ends in [g_error]: the process is
    terminated abnormally, which its parent sees as a non-zero status. *)
Theorem init_failure_is_fatal (env : init_env) (st : tabd) :
  init_mutex st = Free ->
  init_failure env ->
  result (init_thread_func env st) = Aborted.
Proof.
  intros Hmx Hfail.
  pose proof (init_thread_func_outcome env st Hmx) as H. cbv zeta in H.
  destruct (init_succeeds env) eqn:Hok; [| apply H].
  exfalso. unfold init_succeeds in Hok.
  repeat (apply andb_prop in Hok; destruct Hok as [Hok ?]).
  repeat match goal with
         | H : negb _ = true |- _ => apply negb_true_iff in H
         end.
  repeat match goal with
         | H : (_ =? _) = true |- _ => apply Z.eqb_eq in H
         | H : (_ =? _) = false |- _ => apply Z.eqb_neq in H
         end.
  destruct Hfail as [Ho | [Hr | [Hrc | [[] Hs]]]]; contradiction.
Qed.

Lemma init_failure_is_fatal_witness :
  result (init_thread_func env_tcti_fails initial) = Aborted.
Proof.
  apply (init_failure_is_fatal env_tcti_fails initial).
  - reflexivity.
  - right. right. left. vm_compute. discriminate.
Defined.

(** * Further properties of [tabd.c] *)

(** ** The handle array *)



(** ** The handlers and the process state *)

(** X2. Cancel and SetLocality are read-only: whatever the state of the
    daemon and however the run ends, by a return, in the wait for the mutex
    or with a NULL manager, the process state after the handler is the
    state before it. *)
Theorem cancel_and_set_locality_are_read_only
    (st : tabd) (id locality : Z) :
  final (on_handle_cancel id st) = st /\
  final (on_handle_set_locality id locality st) = st.
Proof.
  split.
  - destruct (init_mutex st) as [|t] eqn:Hmx.
    2:{ open_state st. reflexivity. }
    destruct (manager st) as [m|] eqn:Hmg.
    + destruct (m !! id) as [s|] eqn:Hs.
      * rewrite (on_handle_cancel_found st m id Hmx Hmg s Hs). reflexivity.
      * rewrite (on_handle_cancel_unknown st m id Hmx Hmg Hs). reflexivity.
    + open_state st. reflexivity.
  - destruct (init_mutex st) as [|t] eqn:Hmx.
    2:{ open_state st. reflexivity. }
    destruct (manager st) as [m|] eqn:Hmg.
    + destruct (m !! id) as [s|] eqn:Hs.
      * rewrite (on_handle_set_locality_found st m id Hmx Hmg locality s Hs).
        reflexivity.
      * rewrite (on_handle_set_locality_unknown st m id Hmx Hmg locality Hs).
        reflexivity.
    + open_state st. reflexivity.
Qed.

(** X3. A CreateConnection that returns TRUE has found [init_mutex] free
    and a registry without the id it drew.  It leaves the registry extended
    by the new session under that id and every other id as it was, the
    generator advanced by one step, and the rest of the process state
    untouched. *)
Theorem create_connection_frame (st : tabd) (os : option sockets) :
  result (on_handle_create_connection os st) = Returned true ->
  let id := fst (Rand48.lrand48_r (rand_data st)) in
  let st' := final (on_handle_create_connection os st) in
  exists s m,
    os = Some s /\ init_mutex st = Free /\
    manager st = Some m /\ m !! id = None /\
    manager st' =
      Some (<[id := {| sd_id := id; sd_locality := 0;
                       sd_command_endpoint := server_command_fd s;
                       sd_response_endpoint := server_response_fd s;
                       sd_pending := None |}]> m) /\
    (forall id', id' <> id -> manager st' ≫= (.!! id') = m !! id') /\
    rand_data st' = Rand48.iterate (rand_data st) /\
    set_manager (manager st) (set_rand_data (rand_data st) st') = st.
Proof.
  intros Hret id st'. subst st'.
  destruct (init_mutex st) as [|t] eqn:Hmx.
  2:{ destruct (handlers_block_on_held_mutex st t Hmx) as (Hc & _).
      destruct (Hc os) as [E _]. congruence. }
  destruct os as [s|].
  2:{ rewrite (create_connection_no_session st Hmx) in Hret. discriminate. }
  destruct (manager st) as [m|] eqn:Hmg.
  2:{ rewrite (create_connection_null_manager st s Hmx Hmg) in Hret.
      discriminate. }
  destruct (m !! id) as [old|] eqn:Hid.
  { rewrite (create_connection_duplicate st s Hmx m old Hmg Hid) in Hret.
    discriminate. }
  exists s, m. rewrite (create_connection_inserted st s Hmx m Hmg Hid).
  cbn [final]. repeat split; try assumption; try reflexivity.
  - intros id' Hne. cbn. fold id. rewrite lookup_insert_ne
      by (intro E; apply Hne; symmetry; exact E).
    reflexivity.
  - open_state st. reflexivity.
Qed.

Lemma create_connection_frame_witness :
  exists s m,
    some_sockets = Some s /\ init_mutex ready = Free /\
    manager ready = Some m /\
    m !! fst (Rand48.lrand48_r (rand_data ready)) = None.
Proof.
  destruct (create_connection_frame ready some_sockets)
    as (s & m & H1 & H2 & H3 & H4 & _).
  - vm_compute. reflexivity.
  - exists s, m. repeat split; assumption.
Defined.

(** The generator after a CreateConnection that found [init_mutex] free:
    one step further, however the handler ends. *)
Lemma create_connection_steps_generator (st : tabd) (os : option sockets) :
  init_mutex st = Free ->
  rand_data (final (on_handle_create_connection os st)) =
    Rand48.iterate (rand_data st).
Proof.
  intros Hmx. destruct os as [s|].
  2:{ rewrite (create_connection_no_session st Hmx). reflexivity. }
  destruct (manager st) as [m|] eqn:Hmg.
  - destruct (m !! fst (Rand48.lrand48_r (rand_data st))) as [old|] eqn:Hid.
    + rewrite (create_connection_duplicate st s Hmx m old Hmg Hid).
      reflexivity.
    + rewrite (create_connection_inserted st s Hmx m Hmg Hid). reflexivity.
  - open_state st. reflexivity.
Qed.

(** X4. Session ids are the successive draws of the generator: in a daemon
    whose generator has made [n] draws since the state [x], a
    CreateConnection that gets its sockets replies with draw [n + 1] from
    [x], and it leaves the generator at [n + 1] draws whether or not it
    returns. *)
Theorem connection_ids_are_successive_draws
    (x : Z) (n : N) (st : tabd) (s : sockets) :
  init_mutex st = Free ->
  rand_data st = Rand48.after n x ->
  reply_ids (events (on_handle_create_connection (Some s) st)) =
    [Rand48.draw (N.succ n) x] /\
  (forall os,
      rand_data (final (on_handle_create_connection os st)) =
        Rand48.after (N.succ n) x).
Proof.
  intros Hmx Hrd.
  assert (Hstep : Rand48.after (N.succ n) x = Rand48.iterate (rand_data st)).
  { unfold Rand48.after. rewrite N.iter_succ, Hrd. reflexivity. }
  split.
  - unfold Rand48.draw. rewrite Hstep.
    destruct (create_connection_reply_ids st (Some s)) as [E | E].
    + exfalso. destruct (manager st) as [m|] eqn:Hmg.
      * destruct (m !! fst (Rand48.lrand48_r (rand_data st)))
          as [old|] eqn:Hid.
        -- rewrite (create_connection_duplicate st s Hmx m old Hmg Hid) in E.
           discriminate.
        -- rewrite (create_connection_inserted st s Hmx m Hmg Hid) in E.
           discriminate.
      * open_state st. discriminate.
    + exact E.
  - intros os. rewrite Hstep. apply create_connection_steps_generator, Hmx.
Qed.

Lemma connection_ids_are_successive_draws_witness :
  reply_ids (events (on_handle_create_connection some_sockets
                       (after_draws 2))) =
    [Rand48.draw 3 (rand_data ready)].
Proof.
  apply (connection_ids_are_successive_draws (rand_data ready) 2
           (after_draws 2)
           {| client_fd0 := 10; client_fd1 := 11;
              server_command_fd := 12; server_response_fd := 13 |});
    reflexivity.
Defined.

(** X5. [init_mutex] stops a handler only while a thread holds it.  In a
    state where the mutex is free and no SessionManager has been created,
    as [main] leaves it before the initialization thread has taken the
    mutex, Cancel and SetLocality reach [session_manager_lookup_id] with a
    NULL manager, and CreateConnection sends its reply and then reaches
    [session_manager_insert] with a NULL manager. *)
Theorem handlers_pass_a_free_mutex
    (st : tabd) (id locality : Z) (s : sockets) :
  init_mutex st = Free ->
  manager st = None ->
  result (on_handle_cancel id st) = Undefined /\
  last (events (on_handle_cancel id st)) = Some (EvLookupId id) /\
  result (on_handle_set_locality id locality st) = Undefined /\
  last (events (on_handle_set_locality id locality st)) =
    Some (EvLookupId id) /\
  result (on_handle_create_connection (Some s) st) = Undefined /\
  reply_ids (events (on_handle_create_connection (Some s) st)) =
    [fst (Rand48.lrand48_r (rand_data st))] /\
  last (events (on_handle_create_connection (Some s) st)) =
    Some (EvInsert (fst (Rand48.lrand48_r (rand_data st)))).
Proof.
  intros Hmx Hmg. open_state st. repeat split.
Qed.

Lemma handlers_pass_a_free_mutex_witness :
  result (on_handle_cancel 7 initial) = Undefined /\
  result (on_handle_create_connection some_sockets initial) = Undefined /\
  reply_ids (events (on_handle_create_connection some_sockets initial)) = [0].
Proof.
  destruct (handlers_pass_a_free_mutex initial 7 0
              {| client_fd0 := 10; client_fd1 := 11;
                 server_command_fd := 12; server_response_fd := 13 |})
    as (H1 & _ & _ & _ & H5 & H6 & _); [reflexivity | reflexivity |].
  repeat split; assumption.
Defined.

(** ** Seeding *)

(** X6. [seed_rand_data] returns 0 or 1 and never ends the process.  It
    returns 0 exactly when neither [open] nor [read] returns -1, also
    when [read] delivers fewer bytes than asked for, and it has then seeded
    the generator with the seed variable.  When it returns 1 its last call
    is a warning and the generator is as it was. *)
Theorem seed_rand_data_result (env : init_env) (st : tabd) :
  let r := seed_rand_data env st in
  (result r = Returned 0 \/ result r = Returned 1) /\
  (result r = Returned 0 <-> open_ret env <> -1 /\ read_ret env <> -1) /\
  (result r = Returned 0 ->
   final r = set_rand_data (Rand48.srand48_r (rand_seed env)) st /\
   last (events r) = Some (EvSrand48 (rand_seed env))) /\
  (result r = Returned 1 ->
   final r = st /\ exists format, last (events r) = Some (EvLog LWarning format)).
Proof.
  intros r. subst r.
  destruct (Z.eq_dec (open_ret env) (-1)) as [Ho | Ho].
  { rewrite (seed_rand_data_open_fails env st Ho). cbn [result final events].
    split; [right; reflexivity |].
    split; [split; [discriminate | intros [? _]; contradiction] |].
    split; [discriminate |].
    intros _. split; [reflexivity | eexists; reflexivity]. }
  destruct (Z.eq_dec (read_ret env) (-1)) as [Hr | Hr].
  { rewrite (seed_rand_data_read_fails env st Ho Hr). cbn [result final events].
    split; [right; reflexivity |].
    split; [split; [discriminate | intros [_ ?]; contradiction] |].
    split; [discriminate |].
    intros _. split; [reflexivity | eexists; reflexivity]. }
  rewrite (seed_rand_data_seeds env st Ho Hr). cbn [result final events].
  split; [left; reflexivity |].
  split; [split; [intros _; split; assumption | reflexivity] |].
  split; [intros _; split; reflexivity | discriminate].
Qed.

Lemma srand48_r_arith (seedval : Z) :
  Rand48.srand48_r seedval = (seedval mod 2 ^ 32) * 2 ^ 16 + 0x330E.
Proof.
  unfold Rand48.srand48_r.
  change 0xFFFFFFFF with (Z.ones 32).
  rewrite Z.land_ones by lia.
  rewrite Z.shiftl_mul_pow2 by lia.
  rewrite <- Z.lxor_lor, <- Z.add_nocarry_lxor; try reflexivity.
  - change 0x330E with (0x330E mod 2 ^ 16).
    rewrite <- Z.shiftl_mul_pow2 by lia.
    rewrite <- (Z.land_ones 0x330E 16) by lia.
    apply Z.bits_inj'. intros n Hn.
    rewrite Z.bits_0, !Z.land_spec.
    destruct (Z.ltb_spec n 16).
    + rewrite Z.shiftl_spec_low by lia. reflexivity.
    + rewrite Z.ones_spec_high by lia. rewrite !andb_false_r. reflexivity.
  - change 0x330E with (0x330E mod 2 ^ 16).
    rewrite <- Z.shiftl_mul_pow2 by lia.
    rewrite <- (Z.land_ones 0x330E 16) by lia.
    apply Z.bits_inj'. intros n Hn.
    rewrite Z.bits_0, !Z.land_spec.
    destruct (Z.ltb_spec n 16).
    + rewrite Z.shiftl_spec_low by lia. reflexivity.
    + rewrite Z.ones_spec_high by lia. rewrite !andb_false_r. reflexivity.
Qed.

(** X7. The state that [seed_rand_data] gives the generator is
    (seed mod 2^32) * 2^16 + 0x330E: of the [long int] read from the
    entropy source only the low 32 bits are used, so two seeds that agree
    on them give the same generator, and the state is below 2^48. *)
Theorem seeded_state_uses_32_bits (env env' : init_env) (st : tabd) :
  open_ret env <> -1 -> read_ret env <> -1 ->
  open_ret env' <> -1 -> read_ret env' <> -1 ->
  let seeded := rand_data (final (seed_rand_data env st)) in
  seeded = (rand_seed env mod 2 ^ 32) * 2 ^ 16 + 0x330E /\
  0 <= seeded < 2 ^ 48 /\
  (rand_seed env mod 2 ^ 32 = rand_seed env' mod 2 ^ 32 ->
   final (seed_rand_data env' st) = final (seed_rand_data env st)).
Proof.
  intros Ho Hr Ho' Hr' seeded. subst seeded.
  rewrite (seed_rand_data_seeds env st Ho Hr).
  rewrite (seed_rand_data_seeds env' st Ho' Hr').
  cbn [final]. open_state st. rewrite !srand48_r_arith.
  pose proof (Z.mod_pos_bound (rand_seed env) (2 ^ 32)) as Hb.
  repeat split; try lia.
  intros ->. reflexivity.
Qed.

Lemma seeded_state_uses_32_bits_witness :
  rand_data (final (seed_rand_data env_ok initial)) = 1 * 2 ^ 16 + 0x330E.
Proof.
  destruct (seeded_state_uses_32_bits env_ok env_ok initial) as [H _];
    [vm_compute; discriminate ..|].
  exact H.
Defined.

(** ** More on initialization *)

(** Runs [init_thread_func env] on a state whose fields are variables and
    whose mutex is free, one call at a time, and hands each of the eight
    ways it can end to [leaf]. *)
Ltac init_cases env leaf :=
  unfold init_thread_func; do 4 step;
  destruct (Z.eqb_spec (open_ret env) (-1)) as [Ho | Ho];
  [ erewrite bind_returned by (apply seed_rand_data_open_fails; exact Ho);
    cbn beta; tidy_state; step; leaf |];
  destruct (Z.eqb_spec (read_ret env) (-1)) as [Hr | Hr];
  [ erewrite bind_returned by (apply seed_rand_data_read_fails; assumption);
    cbn beta; tidy_state; step; leaf |];
  erewrite bind_returned by (apply seed_rand_data_seeds; assumption);
  cbn beta; tidy_state; do 3 step;
  destruct (manager_new_ok env) eqn:Hmk; [| step; leaf];
  do 3 step;
  destruct (Z.eqb_spec (tcti_rc env) TSS2_RC_SUCCESS) as [Hrc | Hrc];
  [| step; leaf];
  do 10 step;
  destruct (Z.eqb_spec (start_ret env CommandSourceStage) 0) as [Hcs | Hcs];
  [| step; leaf];
  do 2 step;
  destruct (Z.eqb_spec (start_ret env TabStage) 0) as [Htb | Htb];
  [| step; leaf];
  do 2 step;
  destruct (Z.eqb_spec (start_ret env ResponseSinkStage) 0) as [Hrs | Hrs];
  [| step; leaf];
  do 2 step; leaf.

Ltac show_run :=
  cbn [prepend result final events app g_info emit andb orb negb];
  tidy_state.

(** X8. Whatever the environment answers, a run of [init_thread_func] that
    finds [init_mutex] free starts by logging, taking the mutex and
    installing the handler for SIGINT and then for SIGTERM: the handlers
    are installed before any step that can fail.  The run never touches
    the main loop. *)
Theorem init_installs_signal_handlers_first (env : init_env) (st : tabd) :
  init_mutex st = Free ->
  let r := init_thread_func env st in
  signals (final r) = SIGTERM :: SIGINT :: signals st /\
  g_loop (final r) = g_loop st /\
  firstn 4 (events r) =
    [ EvLog LInfo "init_thread_func start"; EvMutexLock;
      EvSignal SIGINT; EvSignal SIGTERM ].
Proof.
  intros Hmx r. subst r.
  destruct st as [lp mg cs rs tb rd mx ti sg]. cbn in Hmx. subst mx.
  init_cases env ltac:(show_run; repeat split).
Qed.

Lemma init_installs_signal_handlers_first_witness :
  signals (final (init_thread_func env_tcti_fails initial)) =
    [SIGTERM; SIGINT].
Proof.
  apply (init_installs_signal_handlers_first env_tcti_fails initial).
  reflexivity.
Defined.

(** X9. [init_thread_func] creates, wires or starts a pipeline stage only
    after the generator is seeded, the SessionManager is allocated and the
    transport is initialized: a run either makes no pipeline call at all,
    or all of these steps have succeeded. *)
Theorem pipeline_is_built_after_setup (env : init_env) (st : tabd) :
  Forall (fun e => builds_pipeline e = false)
    (events (init_thread_func env st)) \/
  (open_ret env <> -1 /\ read_ret env <> -1 /\
   manager_new_ok env = true /\ tcti_rc env = TSS2_RC_SUCCESS).
Proof.
  destruct st as [lp mg cs rs tb rd mx ti sg]. destruct mx as [|t].
  2:{ left. repeat constructor. }
  init_cases env
    ltac:(show_run;
          first [ right; repeat split; (assumption || reflexivity)
                | left; repeat constructor ]).
Qed.

(** X10. A run of [init_thread_func] that finds [init_mutex] free ends in
    [g_error] exactly when some step fails: its one call at the error
    level is then its last call and carries the message of the first step
    that fails, so no later step is attempted.  A SessionManager that
    cannot be allocated is such a failure.  When no step fails the run
    returns without a call at the error level. *)
Theorem init_reports_first_failure (env : init_env) (st : tabd) :
  init_mutex st = Free ->
  let r := init_thread_func env st in
  match init_error env with
  | Some message =>
      result r = Aborted /\
      last (events r) = Some (EvLog LError message) /\
      errors (events r) = 1%nat
  | None => result r = Returned tt /\ errors (events r) = 0%nat
  end.
Proof.
  intros Hmx r. subst r. unfold init_error.
  destruct st as [lp mg cs rs tb rd mx ti sg]. cbn in Hmx. subst mx.
  init_cases env ltac:(show_run; repeat split).
Qed.

Lemma init_reports_first_failure_witness :
  result (init_thread_func env_tcti_fails initial) = Aborted /\
  last (events (init_thread_func env_tcti_fails initial)) =
    Some (EvLog LError "failed to initialize TCTI: 0x%x") /\
  errors (events (init_thread_func env_tcti_fails initial)) = 1%nat.
Proof.
  apply (init_reports_first_failure env_tcti_fails initial).
  reflexivity.
Defined.

(** The registry that a successful initialization leaves is empty. *)
Lemma init_thread_func_registry (env : init_env) (st : tabd) :
  init_mutex st = Free ->
  init_succeeds env = true ->
  manager (final (init_thread_func env st)) = Some ∅.
Proof.
  intros Hmx. unfold init_succeeds.
  destruct st as [lp mg cs rs tb rd mx ti sg]. cbn in Hmx. subst mx.
  init_cases env ltac:(show_run; first [discriminate | reflexivity]).
Qed.

(** X11. Initialization followed by the first request: after a run of
    [init_thread_func] in which no step fails, a CreateConnection that gets
    its sockets neither waits nor ends the process.  It returns TRUE, its
    reply carries the first draw of the generator seeded with the value
    read from the entropy source, and the registry holds that session and
    no other. *)
Theorem first_connection_after_init
    (env : init_env) (st : tabd) (s : sockets) :
  init_mutex st = Free ->
  init_succeeds env = true ->
  let id := fst (Rand48.lrand48_r (Rand48.srand48_r (rand_seed env))) in
  let r := on_handle_create_connection (Some s)
             (final (init_thread_func env st)) in
  result r = Returned true /\
  reply_ids (events r) = [id] /\
  manager (final r) =
    Some {[ id := {| sd_id := id; sd_locality := 0;
                     sd_command_endpoint := server_command_fd s;
                     sd_response_endpoint := server_response_fd s;
                     sd_pending := None |} ]}.
Proof.
  intros Hmx Hok id r. subst r.
  pose proof (init_thread_func_outcome env st Hmx) as H. cbv zeta in H.
  rewrite Hok in H. destruct H as (_ & _ & Hfree & Hrd & _).
  pose proof (init_thread_func_registry env st Hmx Hok) as Hmg.
  assert (Hid : (∅ : SessionManager.t) !!
                  fst (Rand48.lrand48_r
                         (rand_data (final (init_thread_func env st)))) = None)
    by apply lookup_empty.
  rewrite (create_connection_inserted _ s Hfree ∅ Hmg Hid).
  cbn [result events final]. rewrite Hrd. fold id.
  repeat split.
Qed.

Lemma first_connection_after_init_witness :
  result (on_handle_create_connection some_sockets ready) = Returned true /\
  reply_ids (events (on_handle_create_connection some_sockets ready)) =
    [fst (Rand48.lrand48_r (Rand48.srand48_r 1))].
Proof.
  destruct (first_connection_after_init env_ok initial
              {| client_fd0 := 10; client_fd1 := 11;
                 server_command_fd := 12; server_response_fd := 13 |})
    as (H1 & H2 & _); [reflexivity | reflexivity |].
  split; [exact H1 | exact H2].
Defined.

(** ** Shutting the main loop down *)

(** X12. [main_loop_quit] is idempotent.  After it the loop, if there is
    one, does not run; a second call changes nothing and does not call
    [g_main_loop_quit] again; and the first call quits the loop exactly
    when there is a loop and it runs. *)
Theorem main_loop_quit_is_idempotent (st : tabd) :
  let st' := final (main_loop_quit st) in
  (forall l, g_loop st' = Some l -> is_running l = false) /\
  final (main_loop_quit st') = st' /\
  quits (events (main_loop_quit st')) = 0%nat /\
  quits (events (main_loop_quit st)) =
    (if g_loop st is Some {| is_running := true |} then 1 else 0)%nat.
Proof.
  open_state st. destruct lp as [[[|]]|]; cbn; repeat split;
    intros l [= <-]; reflexivity.
Qed.

(** X13. Losing the bus name shuts the loop down the way a Unix signal
    does, and a shutdown requested twice, by the loss of the name and then
    by a signal, quits the loop at most once: the second request finds the
    loop stopped and only logs. *)
Theorem loop_is_quit_at_most_once (signum : Z) (st : tabd) :
  let r := (on_name_lost;; signal_handler signum) st in
  result r = Returned tt /\
  final (on_name_lost st) = final (signal_handler signum st) /\
  final r = final (on_name_lost st) /\
  quits (events r) = quits (events (on_name_lost st)) /\
  (quits (events r) <= 1)%nat.
Proof.
  open_state st.
  destruct lp as [[[|]]|]; repeat split; cbv; lia.
Qed.

(** ** Exporting the interface *)

(** X14. [on_name_acquired] ends the process exactly when its [user_data]
    is NULL.  Otherwise it returns, whether or not the export succeeds: a
    failed export costs one warning, the last call.  It creates a skeleton
    exactly when [gmain_data] holds none, and connects the handlers of
    CreateConnection, Cancel and SetLocality, in this order, each to its
    signal, after the connections the skeleton already has. *)
Theorem on_name_acquired_outcome
    (export_ok : bool) (user_data : option (option Tpm2AccessBroker)) :
  let r := on_name_acquired export_ok user_data in
  (fst r = Aborted <-> user_data = None) /\
  (forall skeleton, user_data = Some skeleton ->
     fst r =
       Returned
         {| connections :=
              connections (default {| connections := [] |} skeleton) ++
              [ ("handle-create-connection", OnHandleCreateConnection);
                ("handle-cancel", OnHandleCancel);
                ("handle-set-locality", OnHandleSetLocality) ] |} /\
     (In BusSkeletonNew (snd r) <-> skeleton = None) /\
     (last (snd r) =
        Some (if export_ok then BusSkeletonExport
              else BusLog LWarning "failed to export interface: %s"))).
Proof.
  intros r. subst r. split.
  - destruct user_data as [[sk|]|], export_ok; cbn;
      split; intros H; (discriminate || reflexivity).
  - intros skeleton ->.
    destruct skeleton as [sk|], export_ok; cbn;
      (split; [rewrite <- ?app_assoc; reflexivity |]);
      (split; [| reflexivity]);
      (split; [| intros; try discriminate; tauto]);
      intros H; repeat (destruct H as [H | H]; try discriminate H);
      try reflexivity; destruct H.
Qed.

(** X15. Every acquisition of the name connects each of the three handlers
    once more.  [on_name_acquired] keeps the skeleton that [gmain_data]
    holds, so after it has run again on the [gmain_data] it left, each
    handler is connected one more time than before. *)
Theorem on_name_acquired_connects_again
    (export_ok : bool) (skeleton : option Tpm2AccessBroker) (c : callback) :
  exists sk,
    fst (on_name_acquired export_ok (Some skeleton)) = Returned sk /\
    connected_times c sk =
      S (connected_times c (default {| connections := [] |} skeleton)) /\
    (forall export_ok',
       exists sk',
         fst (on_name_acquired export_ok' (Some (Some sk))) = Returned sk' /\
         ~ In BusSkeletonNew (snd (on_name_acquired export_ok' (Some (Some sk)))) /\
         connected_times c sk' = S (connected_times c sk)).
Proof.
  assert (Hcount : forall l,
    connected_times c
      {| connections :=
           ((l ++ [("handle-create-connection", OnHandleCreateConnection)])
              ++ [("handle-cancel", OnHandleCancel)])
             ++ [("handle-set-locality", OnHandleSetLocality)] |} =
    S (connected_times c {| connections := l |})).
  { intros l. unfold connected_times. cbn [connections].
    rewrite !List.filter_app, !length_app. destruct c; cbn; lia. }
  assert (Hrun : forall ok sk0,
    on_name_acquired ok (Some (Some sk0)) =
      (Returned
         {| connections :=
              ((connections sk0
                  ++ [("handle-create-connection", OnHandleCreateConnection)])
                 ++ [("handle-cancel", OnHandleCancel)])
                ++ [("handle-set-locality", OnHandleSetLocality)] |},
       [ BusLog LInfo "on_name_acquired: %s";
         BusSignalConnect "handle-create-connection" OnHandleCreateConnection;
         BusSignalConnect "handle-cancel" OnHandleCancel;
         BusSignalConnect "handle-set-locality" OnHandleSetLocality;
         BusSkeletonExport ] ++
       (if ok then [] else [BusLog LWarning "failed to export interface: %s"]))).
  { intros [|] sk0; reflexivity. }
  exists
    {| connections :=
         ((connections (default {| connections := [] |} skeleton)
             ++ [("handle-create-connection", OnHandleCreateConnection)])
            ++ [("handle-cancel", OnHandleCancel)])
           ++ [("handle-set-locality", OnHandleSetLocality)] |}.
  split; [| split].
  - destruct skeleton as [sk0|], export_ok; reflexivity.
  - destruct skeleton as [[l]|]; cbn [default connections]; apply Hcount.
  - intros ok. eexists. rewrite Hrun. cbn [fst snd].
    split; [reflexivity |]. split; [| apply Hcount].
    destruct ok; cbn; intros H;
      repeat (destruct H as [H | H]; try discriminate H); destruct H.
Qed.

(** ** Command-line options *)

(** X16. [parse_opts] returns 0 or 1, or, on a request for help, the
    process exits with status 0 inside [g_option_context_parse], after the
    same calls as on the other paths and without freeing the option
    context.  When it returns, it returns 1 exactly when the command line
    is rejected or [set_logger] answers -1 for the selected logger, which
    is "stdout" when no logger is given; freeing the option context is
    then its last call and happens once.  On every path it has allocated
    the TctiOptions object. *)
Theorem parse_opts_result
    (set_logger : string -> Z) (request : parse_request)
    (options : tabd_options_t) :
  let r := parse_opts_with_help set_logger request options in
  In ScTctiOptionsNew (snd r) /\
  match request with
  | HelpRequested =>
      fst r = Exits 0 /\
      last (snd r) = Some ScOptionContextParse /\
      context_frees (snd r) = 0%nat /\
      (forall cmdline,
          snd r =
            firstn 6
              (snd (parse_opts_with_help set_logger (Parsed cmdline) options)))
  | Parsed cmdline =>
      exists ret options',
        fst r = Returns (ret, options') /\
        (ret = 0 \/ ret = 1) /\
        (ret = 1 <->
         cmdline = None \/
         exists p, cmdline = Some p /\ set_logger (selected_logger p) = -1) /\
        tcti_options options' = true /\
        last (snd r) = Some ScOptionContextFree /\
        context_frees (snd r) = 1%nat
  end.
Proof.
  intros r. subst r.
  unfold parse_opts_with_help, parse_opts, selected_logger.
  destruct request as [| [p|]].
  - split; [right; left; reflexivity |].
    repeat split. intros [p|]; [| reflexivity].
    destruct (set_logger (default "stdout" (given_logger p)) =? -1);
      reflexivity.
  - destruct (Z.eqb_spec (set_logger (default "stdout" (given_logger p))) (-1))
      as [E | E]; cbn -[default].
    + split; [right; left; reflexivity |].
      eexists _, _. split; [reflexivity |].
      split; [right; reflexivity |].
      split; [split; [intros _; right; eauto | reflexivity] |].
      repeat split.
    + split; [right; left; reflexivity |].
      eexists _, _. split; [reflexivity |].
      split; [left; reflexivity |].
      split; [split; [discriminate |] |].
      * intros [[=] | (p' & [= <-] & E')]. contradiction.
      * repeat split.
  - cbn. split; [right; left; reflexivity |].
    eexists _, _. split; [reflexivity |].
    split; [right; reflexivity |].
    split; [split; [intros _; left; reflexivity | reflexivity] |].
    repeat split.
Qed.

(** X17. The bus that [parse_opts] selects: the system bus when --system
    is given and the session bus otherwise, also when the logger is then
    found unknown; when the command line is rejected the bus field is left
    as it was.  The logger handed to [set_logger] is the one given, or
    "stdout". *)
Theorem parse_opts_selects_bus
    (set_logger : string -> Z) (cmdline : option parsed)
    (options : tabd_options_t) :
  let r := parse_opts set_logger cmdline options in
  match cmdline with
  | None =>
      bus r.1.2 = bus options /\
      Forall (fun c => forall name, c <> ScSetLogger name) r.2
  | Some p =>
      bus r.1.2 =
        (if given_system p then G_BUS_TYPE_SYSTEM else G_BUS_TYPE_SESSION) /\
      In (ScSetLogger (selected_logger p)) r.2 /\
      (given_logger p = None -> In (ScSetLogger "stdout") r.2)
  end.
Proof.
  intros r. subst r. unfold parse_opts, selected_logger.
  destruct cmdline as [p|].
  - destruct (set_logger (default "stdout" (given_logger p)) =? -1);
      cbn -[default]; (split; [reflexivity |]); split.
    all: try (intros ->; cbn).
    all: do 6 right; left; reflexivity.
  - cbn. split; [reflexivity |]. repeat constructor; discriminate.
Qed.

(** ** [main] *)

Ltac main_cases env :=
  destruct env as [sl cl tc rn sk]; unfold main, parse_opts, selected_logger;
  cbn [me_set_logger me_cmdline me_tcti me_run me_skeleton];
  destruct cl as [p|];
  [ destruct (Z.eqb_spec (sl (default "stdout" (given_logger p))) (-1))
      as [El | El];
    [| destruct tc; [destruct rn as [[]| | |]; [destruct sk | | |] |]]
  |];
  cbn -[default].

Ltac prove_parse_fails :=
  first [ left; reflexivity
        | right; eexists; split; [reflexivity | assumption] ].

Ltac refute_parse_fails H :=
  destruct H as [H | (? & H & ?)];
  [ discriminate H | injection H as <-; contradiction ].

Ltac not_among :=
  let H := fresh in
  intros H; cbn in H;
  repeat (destruct H as [H | H]; [discriminate H |]); destruct H.

(** X18. The exit status of [main] is 0 or 1, and it is 1 exactly when
    [parse_opts] fails: the command line is rejected or the logger is
    unknown.  [main] then returns right after [parse_opts]: it creates no
    mutex, loop or thread and asks for no bus name, and the TctiOptions
    object that [parse_opts] allocated is not released.  With the options
    parsed and no TCTI object, [main] ends the process before it creates
    the initialization thread. *)
Theorem main_exit_status (env : main_env) :
  let r := main env in
  let parse_fails :=
    me_cmdline env = None \/
    exists p, me_cmdline env = Some p /\
              me_set_logger env (selected_logger p) = -1 in
  (forall status, fst r = Returned status -> status = 0 \/ status = 1) /\
  (fst r = Returned 1 <-> parse_fails) /\
  (parse_fails ->
   Forall (fun c => starts_daemon c = false) (snd r) /\
   In ScTctiOptionsNew (snd r) /\ ~ In (ScUnref ObjTctiOptions) (snd r)) /\
  (~ parse_fails -> me_tcti env = false ->
   fst r = Aborted /\ ~ In ScThreadNew (snd r)).
Proof.
  intros r parse_fails. subst r parse_fails. main_cases env.
  all: split;
    [ intros status H;
      first [ discriminate H
            | injection H as <-;
              first [left; reflexivity | right; reflexivity] ] |].
  all: split;
    [ split;
      [ first [ discriminate | intros _; prove_parse_fails ]
      | first [ intros _; reflexivity
              | intros Hpf; exfalso; refute_parse_fails Hpf ] ] |].
  all: split;
    [ first
        [ solve [ intros _; split;
                  [ repeat constructor
                  | split; [right; right; left; reflexivity | not_among] ] ]
        | intros Hpf; exfalso; refute_parse_fails Hpf ]
    | first
        [ solve [ intros Hn; exfalso; apply Hn; prove_parse_fails ]
        | solve [ intros _ [=] ]
        | intros _ _; split; [reflexivity | not_among] ] ].
Qed.

(** X19. [main] asks for the bus name on the bus that [parse_opts]
    selected from the command line, the system bus with --system and the
    session bus without, never on the zero value that the options structure
    starts with; and it asks only when the options were parsed. *)
Theorem main_owns_name_on_selected_bus (env : main_env) (bus_type : Z) :
  In (ScBusOwnName bus_type) (snd (main env)) ->
  exists p,
    me_cmdline env = Some p /\
    me_set_logger env (selected_logger p) <> -1 /\
    bus_type =
      (if given_system p then G_BUS_TYPE_SYSTEM else G_BUS_TYPE_SESSION) /\
    bus_type <> G_BUS_TYPE_NONE.
Proof.
  main_cases env.
  all: intros H; cbn in H;
    repeat (destruct H as [H | H]; [try discriminate H |]);
    try contradiction.
  all: injection H as <-; exists p;
    repeat split; try assumption; destruct (given_system p); discriminate.
Qed.

Lemma main_owns_name_on_selected_bus_witness :
  exists p,
    me_cmdline main_env_system = Some p /\
    me_set_logger main_env_system (selected_logger p) <> -1 /\
    G_BUS_TYPE_SYSTEM =
      (if given_system p then G_BUS_TYPE_SYSTEM else G_BUS_TYPE_SESSION) /\
    G_BUS_TYPE_SYSTEM <> G_BUS_TYPE_NONE.
Proof.
  apply (main_owns_name_on_selected_bus main_env_system G_BUS_TYPE_SYSTEM).
  vm_compute. do 13 right. left. reflexivity.
Defined.

Lemma precedes_here {A} (a b : A) (l : list A) :
  In b l -> precedes a b (a :: l).
Proof.
  intros Hin. apply in_split in Hin as (l2 & l3 & ->).
  exists [], l2, l3. reflexivity.
Qed.

Lemma precedes_later {A} (a b x : A) (l : list A) :
  precedes a b l -> precedes a b (x :: l).
Proof.
  intros (l1 & l2 & l3 & ->). exists (x :: l1), l2, l3. reflexivity.
Qed.

Ltac show_in := repeat first [left; reflexivity | right].

Ltac show_precedes :=
  repeat first [ solve [apply precedes_here; cbn; show_in]
               | apply precedes_later ].

(** X20. When [main] returns 0 it has cleaned up in this order: after the
    main loop has returned it joins the initialization thread, then
    releases the bus name, and only then tears the pipeline down, stage by
    stage from the CommandSource to the ResponseSink, each thread cancelled
    before it is joined and joined before its object is released.  The
    SessionManager is released after every thread has been joined, the
    skeleton exactly when [gmain_data] holds one, and the TctiOptions
    object last. *)
Theorem main_cleans_up_in_order (env : main_env) (s : stage) :
  fst (main env) = Returned 0 ->
  let calls := snd (main env) in
  precedes ScMainLoopRun ScInitThreadJoin calls /\
  precedes ScInitThreadJoin ScBusUnownName calls /\
  precedes ScBusUnownName (ScThreadCancel s) calls /\
  precedes (ScThreadCancel s) (ScThreadJoin s) calls /\
  precedes (ScThreadJoin s) (ScUnref (ObjStage s)) calls /\
  precedes (ScUnref (ObjStage CommandSourceStage)) (ScThreadCancel TabStage)
    calls /\
  precedes (ScUnref (ObjStage TabStage)) (ScThreadCancel ResponseSinkStage)
    calls /\
  precedes (ScThreadJoin s) (ScUnref ObjManager) calls /\
  (In (ScUnref ObjSkeleton) calls <-> me_skeleton env = true) /\
  last calls = Some (ScUnref ObjTctiOptions).
Proof.
  main_cases env; intros Hret; try discriminate Hret; clear Hret.
  all: unfold thread_cleanup; cbn.
  all: repeat match goal with
              | |- _ /\ _ => split
              | |- precedes _ _ _ => destruct s; show_precedes
              end.
  all: try reflexivity.
  all: split;
    [ first [ solve [intros _; reflexivity]
            | intros H; exfalso; revert H; not_among ]
    | first [ solve [intros _; show_in] | discriminate ] ].
Qed.

Lemma main_cleans_up_in_order_witness :
  precedes ScBusUnownName (ScThreadCancel TabStage)
    (snd (main main_env_system)) /\
  last (snd (main main_env_system)) = Some (ScUnref ObjTctiOptions).
Proof.
  destruct (main_cleans_up_in_order main_env_system TabStage)
    as (_ & _ & H & _ & _ & _ & _ & _ & _ & L).
  - vm_compute. reflexivity.
  - split; [exact H | exact L].
Defined.
